(** * CredentialCard: presentation and capability gating of one credential

    Shallow embedding of [src/components/CredentialCard/index.tsx] and of
    the two tables of [src/components/CredentialCard/types.ts].

    The component is a pure function from its props to a tree of React
    elements.  The embedding keeps that shape: [CredentialCard] maps a
    record of props to a [Node], and the helper functions of the source
    ([getAuthTypeIcon], [formatDate], [supportsTokenRefresh]) are Rocq
    functions of the same name.  The fragment of JavaScript the source
    relies on (truthiness, [||], [&&], property lookup on an object
    literal, [String.prototype.slice], [Array.prototype.includes],
    [try]/[catch]) is written out in module [JS]. *)

From Stdlib Require Import ZArith Bool List String Ascii Lia DecimalString.
From stdpp Require Import base decidable option gmap strings list.

Import ListNotations.
Local Open Scope string_scope.

(** ** The JavaScript fragment used by the component *)

Module JS.

(** The values that occur in the component.  Strings are sequences of
    code units; one [ascii] stands for one code unit.  [VInherited k]
    is the member called [k] that every object literal inherits from
    [Object.prototype] (a function, or the prototype object itself for
    [__proto__]); it is neither a string nor falsy. *)
Inductive Value : Type :=
| VUndefined
| VBool (b : bool)
| VNum (n : Z)
| VStr (s : string)
| VInherited (k : string).

#[global] Instance Value_eq_dec : EqDecision Value.
Proof. solve_decision. Defined.

(** ToBoolean. *)
Definition truthy (v : Value) : bool :=
  match v with
  | VUndefined => false
  | VBool b => b
  | VNum n => negb (n =? 0)%Z
  | VStr s => negb (String.eqb s "")
  | VInherited _ => true
  end.

(** [a || b]. *)
Definition or (a b : Value) : Value := if truthy a then a else b.

(** [a || d] where [a] is an optional string and [d] a string: the
    result is a string. *)
Definition orStr (a : option string) (d : string) : string :=
  match a with
  | Some s => if negb (String.eqb s "") then s else d
  | None => d
  end.

(** An optional field of an object: [undefined] when it is absent. *)
Definition optStr (o : option string) : Value :=
  match o with Some s => VStr s | None => VUndefined end.

Definition optNum (o : option Z) : Value :=
  match o with Some n => VNum n | None => VUndefined end.

(** [a !== b], on the values above. *)
Definition strictNe (a b : Value) : bool := negb (bool_decide (a = b)).

(** Property names that an object literal inherits from
    [Object.prototype]. *)
Definition ObjectPrototype : list string :=
  [ "constructor"; "hasOwnProperty"; "isPrototypeOf";
    "propertyIsEnumerable"; "toLocaleString"; "toString"; "valueOf";
    "__proto__"; "__defineGetter__"; "__defineSetter__";
    "__lookupGetter__"; "__lookupSetter__" ].

(** [o[k]] for an object literal [o] whose own properties are the
    entries of a finite map: own properties first, then the prototype
    chain, else [undefined]. *)
Definition get (o : gmap string string) (k : string) : Value :=
  match o !! k with
  | Some s => VStr s
  | None => if existsb (String.eqb k) ObjectPrototype then VInherited k
            else VUndefined
  end.

(** [arr.includes(x)] on an array of strings. *)
Definition includes (arr : list string) (x : string) : bool :=
  existsb (String.eqb x) arr.

(** [s.slice(start, end)] for non-negative integer arguments. *)
Definition slice (s : string) (start end_ : nat) : string :=
  let len := String.length s in
  let from := Nat.min start len in
  let to := Nat.min end_ len in
  String.substring from (to - from) s.

(** Outcome of evaluating an expression that may throw. *)
Inductive Completion (A : Type) : Type :=
| Normal (a : A)
| Throw (e : string).
Arguments Normal {A} a.
Arguments Throw {A} e.

(** [try { return body } catch { return handler }]. *)
Definition tryCatch {A} (body : Completion A) (handler : A) : A :=
  match body with
  | Normal a => a
  | Throw _ => handler
  end.

(** What the host supplies and the language leaves to the implementation:
    - [Date_parse s] is the time value of [new Date(s)] in milliseconds,
      [None] standing for [NaN] (an invalid date);
    - [DateTimeFormat t] is the text that the locale ["zh-CN"] with the
      options [month], [day], [hour] and [minute] set to ["2-digit"]
      gives for a valid time value [t];
    - [nativeSource k] is the text that string conversion gives for the
      member [k] inherited from [Object.prototype]. *)
Record Runtime : Type := {
  Date_parse : string -> option Z;
  DateTimeFormat : Z -> string;
  nativeSource : string -> string
}.

(** [new Date(s)]: the constructor never throws on a string; a string it
    cannot parse gives an invalid date. *)
Definition Date_new (rt : Runtime) (s : string) : option Z := Date_parse rt s.

(** [d.toLocaleString("zh-CN", options)] with well-formed locale and
    options: an invalid date gives the text ["Invalid Date"] and does not
    throw. *)
Definition Date_toLocaleString (rt : Runtime) (d : option Z)
  : Completion string :=
  match d with
  | None => Normal "Invalid Date"
  | Some t => Normal (DateTimeFormat rt t)
  end.

(** Decimal text of an integer. *)
Definition numToString (n : Z) : string :=
  NilEmpty.string_of_int (Z.to_int n).

(** ToString, as a template literal applies it. *)
Definition toString (rt : Runtime) (v : Value) : string :=
  match v with
  | VUndefined => "undefined"
  | VBool true => "true"
  | VBool false => "false"
  | VNum n => numToString n
  | VStr s => s
  | VInherited k => nativeSource rt k
  end.

End JS.

(** ** Data model *)

(** The attribute bag [credential.credential_data], as the interface
    [CredentialData] of the source declares it: every field optional. *)
Record CredentialData : Type := {
  auth_type : option string;
  email : option string;
  region : option string;
  base_url : option string;
  expire : option string;
  last_refresh : option string
}.

(** The empty object literal [{}] seen as a [CredentialData]. *)
Definition emptyData : CredentialData :=
  {| auth_type := None; email := None; region := None; base_url := None;
     expire := None; last_refresh := None |}.

(** Modelled from the spec: the type [CredentialDisplay] is imported from
    the package [@proxycast/plugin-components] and its declaration is not
    part of the sources.  The fields are those the component reads, with
    the optionality the specification's data model gives them. *)
Record CredentialDisplay : Type := {
  uuid : string;
  name : option string;
  is_disabled : bool;
  health_status : option string;
  usage_count : option Z;
  error_count : option Z;
  last_error : option string;
  credential_data : option CredentialData
}.

(** The six callback props.  The component never calls them; it only
    attaches them to controls, so a callback is represented by the name of
    the prop. *)
Inductive Handler : Type :=
| onToggle | onDelete | onReset | onCheckHealth | onRefreshToken | onEdit.

#[global] Instance Handler_eq_dec : EqDecision Handler.
Proof. solve_decision. Defined.

(** [CredentialCardProps] of [types.ts], callbacks apart. *)
Record CredentialCardProps : Type := {
  credential : CredentialDisplay;
  deleting : bool;
  checkingHealth : bool;
  refreshingToken : bool
}.

(** [AUTH_TYPE_LABELS] of [types.ts]. *)
Definition AUTH_TYPE_LABELS : gmap string string :=
  {[ "oauth" := "OAuth";
     "claude_code" := "Claude Code";
     "console" := "Console";
     "setup_token" := "Setup Token";
     "bedrock" := "Bedrock";
     "ccr" := "CCR" ]}.

(** [AUTH_TYPE_COLORS] of [types.ts]. *)
Definition AUTH_TYPE_COLORS : gmap string string :=
  {[ "oauth" := "blue";
     "claude_code" := "purple";
     "console" := "green";
     "setup_token" := "yellow";
     "bedrock" := "orange";
     "ccr" := "gray" ]}.

(** ** React elements *)

(** Icons imported from the component library. *)
Inductive Icon : Type :=
| Loader2 | Trash2 | RefreshCw | Zap | Edit | RotateCcw | Key | Terminal
| Building | Lock | Cloud | Server | CheckCircle | XCircle | Clock | Mail
| Globe.

#[global] Instance Icon_eq_dec : EqDecision Icon.
Proof. solve_decision. Defined.

(** Element types: the imported components, icons and host tags. *)
Inductive Component : Type :=
| Card | CardHeader | CardContent | CardFooter | Badge | Switch | Button
| IconOf (i : Icon)
| Tag (t : string).

#[global] Instance Component_eq_dec : EqDecision Component.
Proof. solve_decision. Defined.

(** The props that the component passes to its elements; [None] is a prop
    that is not passed. *)
Record Props : Type := {
  className : option string;
  variant : option string;
  size : option string;
  onClick : option Handler;
  disabled : option bool;
  checked : option bool;
  onCheckedChange : option Handler
}.

(** An element with its children, or the value of a [{...}] expression
    or text in child position. *)
#[warnings="-register-all"]
Inductive Node : Type :=
| Element (c : Component) (p : Props) (children : list Node)
| Expr (v : JS.Value).

Definition noProps : Props :=
  {| className := None; variant := None; size := None; onClick := None;
     disabled := None; checked := None; onCheckedChange := None |}.

(** Props that consist of a [className] only. *)
Definition cls (c : string) : Props :=
  {| className := Some c; variant := None; size := None; onClick := None;
     disabled := None; checked := None; onCheckedChange := None |}.

(** [<I className=c />] *)
Definition icon (i : Icon) (c : string) : Node := Element (IconOf i) (cls c) [].

(** Literal text in child position. *)
Definition text (s : string) : Node := Expr (JS.VStr s).

(** [{v && n}] in child position. *)
Definition andNode (v : JS.Value) (n : Node) : Node :=
  if JS.truthy v then n else Expr v.

(** [<Button variant="ghost" size="sm" onClick=h disabled=d className=c>] *)
Definition ghostButton (h : Handler) (d : option bool) (c : option string)
  (children : list Node) : Node :=
  Element Button
    {| className := c; variant := Some "ghost"; size := Some "sm";
       onClick := Some h; disabled := d; checked := None;
       onCheckedChange := None |}
    children.

(** ** The component *)

Definition getAuthTypeIcon (authType : string) : Icon :=
  if String.eqb authType "oauth" then Key
  else if String.eqb authType "claude_code" then Terminal
  else if String.eqb authType "console" then Building
  else if String.eqb authType "setup_token" then Lock
  else if String.eqb authType "bedrock" then Cloud
  else if String.eqb authType "ccr" then Server
  else Key.

Definition formatDate (rt : JS.Runtime) (dateStr : string) : string :=
  JS.tryCatch
    (JS.Date_toLocaleString rt (JS.Date_new rt dateStr))
    dateStr.

Definition supportsTokenRefresh (authType : string) : bool :=
  JS.includes ["oauth"; "claude_code"; "console"] authType.

(** The four constants bound at the head of [CredentialCard]. *)

Definition dataOf (c : CredentialDisplay) : CredentialData :=
  match credential_data c with
  | Some d => d
  | None => emptyData
  end.

Definition authTypeOf (c : CredentialDisplay) : string :=
  JS.orStr (auth_type (dataOf c)) "oauth".

Definition isHealthy (c : CredentialDisplay) : bool :=
  negb (is_disabled c)
  && JS.strictNe (JS.optStr (health_status c)) (JS.VStr "unhealthy").

(** The expressions of the badge: [AUTH_TYPE_COLORS[authType] || "gray"]
    and [AUTH_TYPE_LABELS[authType] || authType]. *)

Definition badgeColor (authType : string) : JS.Value :=
  JS.or (JS.get AUTH_TYPE_COLORS authType) (JS.VStr "gray").

Definition badgeLabel (authType : string) : JS.Value :=
  JS.or (JS.get AUTH_TYPE_LABELS authType) (JS.VStr authType).

(** The elements that [CredentialCard] returns, from the leaves up.  Each
    definition is one element of the JSX of the source. *)

(** [<p>{credential.uuid.slice(0, 8)}...</p>] *)
Definition idParagraph (c : CredentialDisplay) : Node :=
  Element (Tag "p") (cls "text-sm text-muted-foreground")
    [ text (JS.slice (uuid c) 0 8); text "..." ].

(** [<Switch checked={!credential.is_disabled} onCheckedChange={onToggle} />] *)
Definition toggleSwitch (c : CredentialDisplay) : Node :=
  Element Switch
    {| className := None; variant := None; size := None; onClick := None;
       disabled := None; checked := Some (negb (is_disabled c));
       onCheckedChange := Some onToggle |}
    [].

(** The icon of a control that has a busy-flag. *)
Definition busyIcon (busy : bool) (idle : Icon) : Node :=
  if busy then icon Loader2 "h-4 w-4 animate-spin" else icon idle "h-4 w-4".

Definition editButton : Node :=
  ghostButton onEdit None None [ icon Edit "h-4 w-4" ].

Definition resetButton : Node :=
  ghostButton onReset None None [ icon RotateCcw "h-4 w-4" ].

Definition healthButton (props : CredentialCardProps) : Node :=
  ghostButton onCheckHealth (Some (checkingHealth props)) None
    [ busyIcon (checkingHealth props) Zap ].

Definition refreshButton (props : CredentialCardProps) : Node :=
  ghostButton onRefreshToken (Some (refreshingToken props)) None
    [ busyIcon (refreshingToken props) RefreshCw ].

Definition deleteButton (props : CredentialCardProps) : Node :=
  ghostButton onDelete (Some (deleting props))
    (Some "text-red-500 hover:text-red-600")
    [ busyIcon (deleting props) Trash2 ].

(** [<CardFooter>] and its children. *)
Definition cardFooter (props : CredentialCardProps) : Node :=
  let authType := authTypeOf (credential props) in
  Element CardFooter (cls "flex justify-end gap-2")
    [ editButton;
      resetButton;
      healthButton props;
      andNode (JS.VBool (supportsTokenRefresh authType)) (refreshButton props);
      deleteButton props ].

(** One counter: [<span>label {count || 0} 次</span>]. *)
Definition counter (label : string) (count : option Z) : Node :=
  Element (Tag "span") noProps
    [ text label; Expr (JS.or (JS.optNum count) (JS.VNum 0)); text " 次" ].

(** [<span className="text-red-500 truncate">最后错误: {last_error}</span>] *)
Definition lastErrorText (c : CredentialDisplay) : Node :=
  Element (Tag "span") (cls "text-red-500 truncate")
    [ text "最后错误: "; Expr (JS.optStr (last_error c)) ].

(** The second [<div>] of the body: the counters and the last error. *)
Definition counterLine (c : CredentialDisplay) : Node :=
  Element (Tag "div")
    (cls "flex items-center gap-4 text-sm text-muted-foreground")
    [ counter "使用: " (usage_count c);
      counter "错误: " (error_count c);
      andNode (JS.optStr (last_error c)) (lastErrorText c) ].

(** [String(v)] of a field that is a string. *)
Definition fieldText (field : option string) : string :=
  match field with Some s => s | None => "undefined" end.

(** One fact row: [{field && <div className=c> icon label value </div>}]. *)
Definition factRow (field : option string) (c : string) (i : Icon)
  (label : string) (value : Node) : Node :=
  andNode (JS.optStr field)
    (Element (Tag "div") (cls c)
       [ icon i "h-4 w-4 text-muted-foreground";
         Element (Tag "span") (cls "text-muted-foreground") [ text label ];
         value ]).

Section Render.

Variable rt : JS.Runtime.

(** The first [<div>] of the body: the grid of fact rows. *)
Definition factGrid (c : CredentialDisplay) : Node :=
  let data := dataOf c in
  Element (Tag "div") (cls "grid grid-cols-2 gap-4 text-sm")
    [ factRow (email data) "flex items-center gap-2" Mail "邮箱:"
        (Element (Tag "span") noProps [ text (fieldText (email data)) ]);
      factRow (region data) "flex items-center gap-2" Globe "区域:"
        (Element (Tag "span") noProps [ text (fieldText (region data)) ]);
      factRow (base_url data) "flex items-center gap-2 col-span-2" Globe
        "Base URL:"
        (Element (Tag "span") (cls "truncate")
           [ text (fieldText (base_url data)) ]);
      factRow (expire data) "flex items-center gap-2" Clock "过期:"
        (Element (Tag "span") noProps
           [ text (formatDate rt (fieldText (expire data))) ]);
      factRow (last_refresh data) "flex items-center gap-2" RefreshCw "刷新:"
        (Element (Tag "span") noProps
           [ text (formatDate rt (fieldText (last_refresh data))) ]) ].

(** [<CardContent>] and its children. *)
Definition cardContent (c : CredentialDisplay) : Node :=
  Element CardContent (cls "space-y-3") [ factGrid c; counterLine c ].

(** [<Badge>] and its children. *)
Definition badge (c : CredentialDisplay) : Node :=
  let authType := authTypeOf c in
  Element Badge
    {| className :=
         Some ("bg-" +:+ JS.toString rt (badgeColor authType) +:+ "-50");
       variant := Some "outline"; size := None; onClick := None;
       disabled := None; checked := None; onCheckedChange := None |}
    [ icon (getAuthTypeIcon authType) "h-3 w-3 mr-1";
      Expr (badgeLabel authType) ].

(** [<CardHeader>] and its children. *)
Definition cardHeader (c : CredentialDisplay) : Node :=
  Element CardHeader
    (cls "flex flex-row items-center justify-between space-y-0 pb-2")
    [ Element (Tag "div") (cls "flex items-center gap-3")
        [ Element (Tag "div") (cls "flex items-center gap-2")
            [ if isHealthy c
              then icon CheckCircle "h-5 w-5 text-green-500"
              else icon XCircle "h-5 w-5 text-red-500" ];
          Element (Tag "div") noProps
            [ Element (Tag "h3") (cls "font-medium")
                [ Expr (JS.or (JS.optStr (name c)) (JS.VStr "未命名凭证")) ];
              idParagraph c ];
          badge c ];
      toggleSwitch c ].

Definition CredentialCard (props : CredentialCardProps) : Node :=
  let c := credential props in
  Element Card (cls (if is_disabled c then "opacity-60" else ""))
    [ cardHeader c; cardContent c; cardFooter props ].

End Render.

(** ** Observing a rendered tree *)

(** The elements of a tree that satisfy [f], in document order. *)
Fixpoint select (f : Component -> Props -> bool) (n : Node) : list Node :=
  match n with
  | Element c p children =>
      (if f c p then [n] else []) ++ flat_map (select f) children
  | Expr _ => []
  end.

(** The callback attached to an element, if any. *)
Definition handlerOf (p : Props) : option Handler :=
  match onClick p with
  | Some h => Some h
  | None => onCheckedChange p
  end.

(** The controls of a tree that invoke the callback [h]. *)
Definition controls (h : Handler) (n : Node) : list Node :=
  select (fun _ p => bool_decide (handlerOf p = Some h)) n.

(** The elements of a tree with the host tag [t]. *)
Definition byTag (t : string) (n : Node) : list Node :=
  select (fun c _ => bool_decide (c = Tag t)) n.

Definition propsOf (n : Node) : Props :=
  match n with
  | Element _ p _ => p
  | Expr _ => noProps
  end.

Definition childrenOf (n : Node) : list Node :=
  match n with
  | Element _ _ children => children
  | Expr _ => []
  end.

(** Whether the node is a control that invokes the callback [h]. *)
Definition wiredTo (h : Handler) (n : Node) : bool :=
  bool_decide (handlerOf (propsOf n) = Some h).

(** A control is rendered disabled when its [disabled] prop is [true]. *)
Definition renderedDisabled (n : Node) : bool :=
  match disabled (propsOf n) with
  | Some b => b
  | None => false
  end.

(** A control shows a spinner when it contains the [Loader2] icon. *)
Definition showsSpinner (n : Node) : bool :=
  match select (fun c _ => bool_decide (c = IconOf Loader2)) n with
  | [] => false
  | _ :: _ => true
  end.

(** The text that an element displays: strings and numbers in child
    position are text, the other values of the component leave none. *)
Fixpoint textContent (n : Node) : string :=
  match n with
  | Element _ _ children =>
      fold_right (fun k acc => textContent k +:+ acc) "" children
  | Expr (JS.VStr s) => s
  | Expr (JS.VNum z) => JS.numToString z
  | Expr _ => ""
  end.

(** ** A reference host

    One concrete [JS.Runtime], used to run the component on examples: a
    host in the UTC time zone whose date parser recognises the date-time
    format [YYYY-MM-DDTHH:mm:ssZ] and rejects every other string. *)

Module ReferenceHost.

Definition digitOf (c : ascii) : option Z :=
  let n := Z.of_nat (nat_of_ascii c) in
  if ((48 <=? n) && (n <=? 57))%Z then Some (n - 48)%Z else None.

Fixpoint number (s : string) (acc : Z) : option Z :=
  match s with
  | EmptyString => Some acc
  | String c s' => d ← digitOf c; number s' (10 * acc + d)%Z
  end.

Definition field (s : string) (pos len : nat) : option Z :=
  number (String.substring pos len s) 0.

Definition charAt (s : string) (pos : nat) (c : string) : bool :=
  String.eqb (String.substring pos 1 s) c.

(** Days between 1970-01-01 and the civil date [y]-[m]-[d]. *)
Definition daysFromCivil (y m d : Z) : Z :=
  let y' := if (m <=? 2)%Z then (y - 1)%Z else y in
  let era := (y' / 400)%Z in
  let yoe := (y' - era * 400)%Z in
  let mp := if (m <=? 2)%Z then (m + 9)%Z else (m - 3)%Z in
  let doy := ((153 * mp + 2) / 5 + d - 1)%Z in
  let doe := (yoe * 365 + yoe / 4 - yoe / 100 + doy)%Z in
  (era * 146097 + doe - 719468)%Z.

(** Month and day of the civil date that lies [z] days after 1970-01-01. *)
Definition monthDayOfDays (z : Z) : Z * Z :=
  let z' := (z + 719468)%Z in
  let era := (z' / 146097)%Z in
  let doe := (z' - era * 146097)%Z in
  let yoe := ((doe - doe / 1460 + doe / 36524 - doe / 146096) / 365)%Z in
  let doy := (doe - (365 * yoe + yoe / 4 - yoe / 100))%Z in
  let mp := ((5 * doy + 2) / 153)%Z in
  let d := (doy - (153 * mp + 2) / 5 + 1)%Z in
  let m := if (mp <? 10)%Z then (mp + 3)%Z else (mp - 9)%Z in
  (m, d).

Definition inRange (lo x hi : Z) : bool := ((lo <=? x) && (x <=? hi))%Z.

Definition parse (s : string) : option Z :=
  if negb (String.length s =? 20)%nat then None
  else if negb (charAt s 4 "-" && charAt s 7 "-" && charAt s 10 "T"
                && charAt s 13 ":" && charAt s 16 ":" && charAt s 19 "Z")
  then None
  else
    y ← field s 0 4; m ← field s 5 2; d ← field s 8 2;
    h ← field s 11 2; mi ← field s 14 2; sec ← field s 17 2;
    if inRange 1 m 12 && inRange 1 d 31 && inRange 0 h 23
       && inRange 0 mi 59 && inRange 0 sec 59
    then Some ((((daysFromCivil y m d * 24 + h) * 60 + mi) * 60 + sec)
               * 1000)%Z
    else None.

Definition twoDigits (n : Z) : string :=
  (if (n <? 10)%Z then "0" else "") +:+ JS.numToString n.

Definition format (t : Z) : string :=
  let minutes := (t / 60000)%Z in
  let days := (minutes / 1440)%Z in
  let ofDay := (minutes mod 1440)%Z in
  let '(m, d) := monthDayOfDays days in
  twoDigits m +:+ "/" +:+ twoDigits d +:+ " "
  +:+ twoDigits (ofDay / 60) +:+ ":" +:+ twoDigits (ofDay mod 60).

Definition native (k : string) : string :=
  if String.eqb k "__proto__" then "[object Object]"
  else "function " +:+ (if String.eqb k "constructor" then "Object" else k)
       +:+ "() { [native code] }".

Definition host : JS.Runtime :=
  {| JS.Date_parse := parse; JS.DateTimeFormat := format;
     JS.nativeSource := native |}.

End ReferenceHost.

(** ** The view-model of the badge *)

(** What the badge shows of an auth type: the three expressions of the
    source that depend on [authType], gathered in one record. *)
Record AuthTypeMeta : Type := {
  label : JS.Value;
  iconId : Icon;
  colorToken : JS.Value
}.

(** The classification of a raw [auth_type] field: the default of the
    source is applied first, then the three expressions. *)
Definition classify (raw : option string) : AuthTypeMeta :=
  let authType := JS.orStr raw "oauth" in
  {| label := badgeLabel authType;
     iconId := getAuthTypeIcon authType;
     colorToken := badgeColor authType |}.

(** The keys of the two tables. *)
Definition knownKeys : list string :=
  [ "oauth"; "claude_code"; "console"; "setup_token"; "bedrock"; "ccr" ].

(** ** The fact rows of the body *)

Inductive Fact : Type :=
| FEmail | FRegion | FBaseUrl | FExpire | FLastRefresh.

#[global] Instance Fact_eq_dec : EqDecision Fact.
Proof. solve_decision. Defined.

(** The fixed order of the rows. *)
Definition allFacts : list Fact :=
  [ FEmail; FRegion; FBaseUrl; FExpire; FLastRefresh ].

(** The field a row is rendered from. *)
Definition factField (f : Fact) (d : CredentialData) : option string :=
  match f with
  | FEmail => email d
  | FRegion => region d
  | FBaseUrl => base_url d
  | FExpire => expire d
  | FLastRefresh => last_refresh d
  end.

(** The fact a rendered row is about, read from the row's label. *)
Definition factOfLabel (l : string) : option Fact :=
  if String.eqb l "邮箱:" then Some FEmail
  else if String.eqb l "区域:" then Some FRegion
  else if String.eqb l "Base URL:" then Some FBaseUrl
  else if String.eqb l "过期:" then Some FExpire
  else if String.eqb l "刷新:" then Some FLastRefresh
  else None.

Definition rowFact (n : Node) : option Fact :=
  match n with
  | Element (Tag "div") _ [ _; lbl; _ ] => factOfLabel (textContent lbl)
  | _ => None
  end.

(** The text a rendered row shows as its value. *)
Definition rowValue (n : Node) : string :=
  match n with
  | Element _ _ [ _; _; v ] => textContent v
  | _ => ""
  end.

(** The rows that a grid renders, with the fact each one is about. *)
Definition renderedFacts (grid : Node) : list Fact :=
  omap rowFact (childrenOf grid).

(** The text that the row of a fact shows for a field that is set. *)
Definition factText (rt : JS.Runtime) (f : Fact) (d : CredentialData)
  : string :=
  match f with
  | FExpire | FLastRefresh => formatDate rt (fieldText (factField f d))
  | FEmail | FRegion | FBaseUrl => fieldText (factField f d)
  end.

Definition isElement (n : Node) : bool :=
  match n with
  | Element _ _ _ => true
  | Expr _ => false
  end.

(** ** Updating props *)

Definition setData (d : CredentialData) (c : CredentialDisplay)
  : CredentialDisplay :=
  {| uuid := uuid c; name := name c; is_disabled := is_disabled c;
     health_status := health_status c; usage_count := usage_count c;
     error_count := error_count c; last_error := last_error c;
     credential_data := Some d |}.

(** The same props with another [auth_type] field ([None]: no field). *)
Definition setAuthType (a : option string) (props : CredentialCardProps)
  : CredentialCardProps :=
  let c := credential props in
  let d := dataOf c in
  {| credential :=
       setData {| auth_type := a; email := email d; region := region d;
                  base_url := base_url d; expire := expire d;
                  last_refresh := last_refresh d |} c;
     deleting := deleting props;
     checkingHealth := checkingHealth props;
     refreshingToken := refreshingToken props |}.

(** The same props with other busy-flags. *)
Definition setBusy (d h r : bool) (props : CredentialCardProps)
  : CredentialCardProps :=
  {| credential := credential props; deleting := d; checkingHealth := h;
     refreshingToken := r |}.

(** ** Sample inputs *)

Module Sample.

Definition data : CredentialData :=
  {| auth_type := Some "bedrock"; email := Some "ops@example.com";
     region := Some "us-east-1"; base_url := None;
     expire := Some "2025-01-15T08:30:00Z"; last_refresh := None |}.

Definition cred : CredentialDisplay :=
  {| uuid := "123e4567-e89b-12d3-a456-426614174000"; name := Some "prod";
     is_disabled := false; health_status := Some "healthy";
     usage_count := Some 12%Z; error_count := None; last_error := None;
     credential_data := Some data |}.

(** A credential with a short id and a disabled flag. *)
Definition short : CredentialDisplay :=
  {| uuid := "abc"; name := None; is_disabled := true;
     health_status := Some "healthy"; usage_count := None;
     error_count := None; last_error := None; credential_data := None |}.

(** A credential whose [email] field is present and empty. *)
Definition emptyEmail : CredentialDisplay :=
  setData {| auth_type := Some "bedrock"; email := Some "";
             region := Some "us-east-1"; base_url := None;
             expire := None; last_refresh := None |} cred.

(** A credential whose [auth_type] field is present and empty. *)
Definition emptyAuthType : CredentialDisplay :=
  setData {| auth_type := Some ""; email := None; region := None;
             base_url := None; expire := None; last_refresh := None |} cred.

(** A credential with the given flag, health status and auth type. *)
Definition scenario (off : bool) (health : option string) (a : string)
  : CredentialDisplay :=
  {| uuid := uuid cred; name := None; is_disabled := off;
     health_status := health; usage_count := None; error_count := None;
     last_error := None;
     credential_data :=
       Some {| auth_type := Some a; email := None; region := None;
               base_url := None; expire := None; last_refresh := None |} |}.

Definition props (c : CredentialDisplay) : CredentialCardProps :=
  {| credential := c; deleting := false; checkingHealth := true;
     refreshingToken := false |}.

End Sample.

(** ** Further observations of a rendered tree *)

(** Whether an element has a callback attached. *)
Definition hasHandler (p : Props) : bool :=
  match handlerOf p with
  | Some _ => true
  | None => false
  end.

(** All the controls of a tree, in document order. *)
Definition allControls (n : Node) : list Node :=
  select (fun _ p => hasHandler p) n.

(** The callbacks that the controls of a tree invoke, in document order. *)
Definition handlersOf (n : Node) : list Handler :=
  omap (fun k => handlerOf (propsOf k)) (allControls n).

Definition isIcon (c : Component) : bool :=
  match c with
  | IconOf _ => true
  | _ => false
  end.

(** The icons of a tree, in document order. *)
Definition iconsOf (n : Node) : list Icon :=
  omap (fun k => match k with
                 | Element (IconOf i) _ _ => Some i
                 | _ => None
                 end)
       (select (fun c _ => isIcon c) n).

(** The health icons of a tree: the elements that are one of the two
    status icons of the header. *)
Definition healthIcons (n : Node) : list Node :=
  select (fun c _ => bool_decide (c = IconOf CheckCircle)
                     || bool_decide (c = IconOf XCircle)) n.


(** ** Further sample inputs *)

Module Cases.


(** Props with every busy-flag set, for a disabled, unhealthy credential. *)
Definition busy : CredentialCardProps :=
  {| credential := Sample.scenario true (Some "unhealthy") "bedrock";
     deleting := true; checkingHealth := true; refreshingToken := true |}.

(** The same busy-flags, for an enabled credential of the same auth
    type. *)
Definition idle : CredentialCardProps :=
  {| credential := Sample.scenario false None "bedrock";
     deleting := true; checkingHealth := true; refreshingToken := true |}.

End Cases.

(** ** Facts about the JavaScript fragment *)

Lemma truthy_optStr (o : option string) :
  JS.truthy (JS.optStr o) = true <-> exists s, o = Some s /\ s <> "".
Proof.
  destruct o as [s|]; simpl.
  - rewrite negb_true_iff. split.
    + intros H. exists s. split; [reflexivity|].
      intros ->. discriminate.
    + intros (s' & [= <-] & Hne). now apply String.eqb_neq.
  - split; [discriminate|]. intros (s & [=] & _).
Qed.

Lemma orStr_or (o : option string) (d : string) :
  JS.VStr (JS.orStr o d) = JS.or (JS.optStr o) (JS.VStr d).
Proof.
  destruct o as [s|]; [|reflexivity].
  unfold JS.orStr, JS.or; simpl. now destruct (String.eqb s "").
Qed.

Lemma includes_In (arr : list string) (x : string) :
  JS.includes arr x = true <-> In x arr.
Proof.
  unfold JS.includes. rewrite existsb_exists. split.
  - intros (y & Hy & Heq). apply String.eqb_eq in Heq. now subst.
  - intros H. exists x. split; [assumption|apply String.eqb_refl].
Qed.

Lemma substring_all (s : string) (n : nat) :
  String.length s <= n -> String.substring 0 n s = s.
Proof.
  revert n. induction s as [|c s IH]; intros [|n] Hn; simpl in *;
    try reflexivity; try lia.
  f_equal. apply IH. lia.
Qed.

Lemma substring_prefix (s : string) (n : nat) :
  n <= String.length s ->
  exists rest,
    s = String.substring 0 n s +:+ rest
    /\ String.length (String.substring 0 n s) = n.
Proof.
  revert n. induction s as [|c s IH]; intros [|n] Hn; simpl in *.
  - now exists "".
  - lia.
  - now exists (String c s).
  - destruct (IH n) as (rest & Heq & Hlen); [lia|].
    exists rest. split; [|simpl; now f_equal].
    change (String c s = String c (String.substring 0 n s +:+ rest)).
    now f_equal.
Qed.

Lemma slice_from_start (s : string) (n : nat) :
  JS.slice s 0 n = String.substring 0 n s.
Proof.
  unfold JS.slice. simpl. rewrite Nat.sub_0_r.
  destruct (Nat.le_gt_cases n (String.length s)) as [H|H].
  - now rewrite Nat.min_l.
  - rewrite Nat.min_r by lia.
    rewrite !substring_all by lia. reflexivity.
Qed.

(** ** The status deriver *)

(** C1.  The derived health signal is [not is_disabled and health_status
    is not "unhealthy"].  A disabled credential is never healthy, whatever
    its health status; an enabled credential whose health status is absent
    or differs from ["unhealthy"] is healthy. *)
Theorem isHealthy_spec (c : CredentialDisplay) :
  isHealthy c
  = negb (is_disabled c)
    && negb (bool_decide (health_status c = Some "unhealthy"))
  /\ (is_disabled c = true -> isHealthy c = false)
  /\ (is_disabled c = false -> health_status c <> Some "unhealthy" ->
      isHealthy c = true).
Proof.
  assert (Heq : isHealthy c
                = negb (is_disabled c)
                  && negb (bool_decide (health_status c = Some "unhealthy"))).
  { unfold isHealthy, JS.strictNe. do 2 f_equal.
    destruct (health_status c) as [s|]; simpl;
      repeat case_bool_decide; congruence. }
  split; [exact Heq|]. rewrite Heq. split.
  - intros ->. reflexivity.
  - intros -> Hne. now rewrite bool_decide_eq_false_2.
Qed.

Lemma isHealthy_spec_witness :
  (is_disabled Sample.short = true /\ isHealthy Sample.short = false)
  /\ (is_disabled Sample.cred = false
      /\ health_status Sample.cred <> Some "unhealthy"
      /\ isHealthy Sample.cred = true).
Proof.
  assert (Hd : is_disabled Sample.short = true) by reflexivity.
  assert (He : is_disabled Sample.cred = false) by reflexivity.
  assert (Hh : health_status Sample.cred <> Some "unhealthy")
    by discriminate.
  split; [split; [exact Hd|]|split; [exact He|split; [exact Hh|]]].
  - exact (proj1 (proj2 (isHealthy_spec Sample.short)) Hd).
  - exact (proj2 (proj2 (isHealthy_spec Sample.cred)) He Hh).
Defined.

(** ** The capability gate *)

(** C4.  [supportsTokenRefresh] is true for exactly the three strings
    ["oauth"], ["claude_code"] and ["console"], and false for every other
    string; the empty string and an unknown key are among the others. *)
Theorem supportsTokenRefresh_exact (authType : string) :
  (supportsTokenRefresh authType = true
   <-> authType = "oauth" \/ authType = "claude_code" \/ authType = "console")
  /\ supportsTokenRefresh "" = false
  /\ supportsTokenRefresh "unknown_type" = false.
Proof.
  split; [|split; reflexivity].
  unfold supportsTokenRefresh. rewrite includes_In. simpl.
  intuition congruence.
Qed.

(** ** Date formatting *)

(** The [catch] branch of [formatDate] is never taken: the result is the
    locale text of a date that parses, and the fixed text of an invalid
    date otherwise. *)
Lemma formatDate_cases (rt : JS.Runtime) (dateStr : string) :
  formatDate rt dateStr
  = match JS.Date_parse rt dateStr with
    | Some t => JS.DateTimeFormat rt t
    | None => "Invalid Date"
    end.
Proof.
  unfold formatDate, JS.Date_new, JS.Date_toLocaleString.
  now destruct (JS.Date_parse rt dateStr).
Qed.

(** C3.  On a string that does not parse as a date, [formatDate] returns
    the text ["Invalid Date"]: it does not throw, and it does not return
    its argument unless the argument is that very text. *)
Theorem formatDate_invalid (rt : JS.Runtime) (dateStr : string) :
  JS.Date_parse rt dateStr = None ->
  formatDate rt dateStr = "Invalid Date"
  /\ (formatDate rt dateStr = dateStr <-> dateStr = "Invalid Date").
Proof.
  intros Hnan. rewrite formatDate_cases, Hnan.
  split; [reflexivity|]. split; congruence.
Qed.

Lemma formatDate_invalid_witness :
  JS.Date_parse ReferenceHost.host "not-a-date" = None
  /\ formatDate ReferenceHost.host "not-a-date" = "Invalid Date"
  /\ formatDate ReferenceHost.host "not-a-date" <> "not-a-date".
Proof.
  assert (Hnan : JS.Date_parse ReferenceHost.host "not-a-date" = None)
    by reflexivity.
  destruct (formatDate_invalid ReferenceHost.host "not-a-date" Hnan)
    as [Hres Hiff].
  split; [exact Hnan|]. split; [exact Hres|].
  intros Heq. apply Hiff in Heq. discriminate Heq.
Defined.

(** ** Where the controls of a card are *)

Ltac case_truthy :=
  repeat match goal with
         | |- context [JS.truthy ?v] => destruct (JS.truthy v)
         end.

Lemma controls_cardContent rt h c : controls h (cardContent rt c) = [].
Proof.
  unfold cardContent, factGrid, counterLine, factRow, andNode, controls.
  case_truthy; reflexivity.
Qed.

Lemma controls_cardHeader rt h c :
  controls h (cardHeader rt c)
  = if bool_decide (h = onToggle) then [toggleSwitch c] else [].
Proof.
  unfold cardHeader, controls.
  destruct (isHealthy c); destruct h; reflexivity.
Qed.

Lemma controls_cardFooter h props :
  controls h (cardFooter props)
  = match h with
    | onEdit => [editButton]
    | onReset => [resetButton]
    | onCheckHealth => [healthButton props]
    | onRefreshToken =>
        if supportsTokenRefresh (authTypeOf (credential props))
        then [refreshButton props] else []
    | onDelete => [deleteButton props]
    | onToggle => []
    end.
Proof.
  unfold cardFooter, controls, andNode, JS.truthy, healthButton,
    refreshButton, deleteButton, busyIcon.
  destruct (supportsTokenRefresh _), (checkingHealth props),
    (refreshingToken props), (deleting props), h; reflexivity.
Qed.

Lemma controls_card rt h props :
  controls h (CredentialCard rt props)
  = (controls h (cardHeader rt (credential props))
     ++ controls h (cardFooter props))%list.
Proof.
  rewrite <- (app_nil_l (controls h (cardFooter props))).
  rewrite <- (controls_cardContent rt h (credential props)).
  unfold CredentialCard, controls. cbn [select flat_map].
  rewrite app_nil_r. reflexivity.
Qed.

Lemma controls_of_card rt h props :
  controls h (CredentialCard rt props)
  = match h with
    | onToggle => [toggleSwitch (credential props)]
    | onEdit => [editButton]
    | onReset => [resetButton]
    | onCheckHealth => [healthButton props]
    | onRefreshToken =>
        if supportsTokenRefresh (authTypeOf (credential props))
        then [refreshButton props] else []
    | onDelete => [deleteButton props]
    end.
Proof.
  rewrite controls_card, controls_cardHeader, controls_cardFooter.
  destruct h; reflexivity.
Qed.

Lemma byTag_p_card rt props :
  byTag "p" (CredentialCard rt props) = [idParagraph (credential props)].
Proof.
  assert (Hh : byTag "p" (cardHeader rt (credential props))
               = [idParagraph (credential props)]).
  { unfold byTag, cardHeader. destruct (isHealthy _); reflexivity. }
  assert (Hc : byTag "p" (cardContent rt (credential props)) = []).
  { unfold cardContent, factGrid, counterLine, factRow, andNode, byTag.
    case_truthy; reflexivity. }
  assert (Hf : byTag "p" (cardFooter props) = []).
  { unfold cardFooter, byTag, andNode, JS.truthy, healthButton,
      refreshButton, deleteButton, busyIcon.
    destruct (supportsTokenRefresh _), (checkingHealth props),
      (refreshingToken props), (deleting props); reflexivity. }
  unfold byTag in *. unfold CredentialCard. cbn [select flat_map].
  rewrite Hh, Hc, Hf. reflexivity.
Qed.

(** ** The refresh-token control *)

(** C5.  The control that invokes [onRefreshToken] is in the footer if and
    only if the defaulted auth type supports a token refresh.  For the
    other auth types the card has no such control at all, be it enabled or
    disabled. *)
Theorem refresh_control_gate rt props :
  controls onRefreshToken (CredentialCard rt props)
  = (if supportsTokenRefresh (authTypeOf (credential props))
     then [refreshButton props] else [])
  /\ existsb (wiredTo onRefreshToken) (childrenOf (cardFooter props))
     = supportsTokenRefresh (authTypeOf (credential props))
  /\ (In (refreshButton props) (childrenOf (cardFooter props))
      <-> supportsTokenRefresh (authTypeOf (credential props)) = true).
Proof.
  split; [exact (controls_of_card rt onRefreshToken props)|].
  unfold cardFooter, andNode, JS.truthy.
  destruct (supportsTokenRefresh _); split; try reflexivity.
  - split; [reflexivity|]. intros _. simpl. tauto.
  - split; [|discriminate]. simpl.
    unfold refreshButton, editButton, resetButton, healthButton,
      deleteButton, ghostButton.
    intros [H|[H|[H|[H|[H|[]]]]]]; discriminate H.
Qed.

(** ** The truncated identifier *)

(** C6.  The one paragraph of the card shows the first 8 characters of the
    id followed by ["..."] when the id has at least 8 characters, and the
    whole id followed by ["..."] when it is shorter. *)
Theorem truncated_id rt props :
  byTag "p" (CredentialCard rt props) = [idParagraph (credential props)]
  /\ (8 <= String.length (uuid (credential props)) ->
      textContent (idParagraph (credential props))
      = String.substring 0 8 (uuid (credential props)) +:+ "..."
      /\ String.length (String.substring 0 8 (uuid (credential props))) = 8
      /\ exists rest,
          uuid (credential props)
          = String.substring 0 8 (uuid (credential props)) +:+ rest)
  /\ (String.length (uuid (credential props)) < 8 ->
      textContent (idParagraph (credential props))
      = uuid (credential props) +:+ "...").
Proof.
  split; [apply byTag_p_card|].
  set (c := credential props).
  assert (Htext : textContent (idParagraph c)
                  = String.substring 0 8 (uuid c) +:+ "...").
  { unfold idParagraph, text. cbn [textContent fold_right].
    rewrite slice_from_start. reflexivity. }
  split.
  - intros Hlen. split; [exact Htext|].
    destruct (substring_prefix (uuid c) 8 Hlen) as (rest & Heq & Hl).
    split; [exact Hl|]. now exists rest.
  - intros Hlen. rewrite Htext, substring_all by lia. reflexivity.
Qed.

Lemma truncated_id_witness :
  (8 <= String.length (uuid Sample.cred)
   /\ textContent (idParagraph Sample.cred) = "123e4567...")
  /\ (String.length (uuid Sample.short) < 8
      /\ textContent (idParagraph Sample.short) = "abc...").
Proof.
  split.
  - assert (H : 8 <= String.length (uuid Sample.cred)) by (simpl; lia).
    split; [exact H|].
    destruct (truncated_id ReferenceHost.host (Sample.props Sample.cred))
      as (_ & Hlong & _).
    destruct (Hlong H) as (Heq & _). exact Heq.
  - assert (H : String.length (uuid Sample.short) < 8) by (simpl; lia).
    split; [exact H|].
    destruct (truncated_id ReferenceHost.host (Sample.props Sample.short))
      as (_ & _ & Hshort).
    exact (Hshort H).
Defined.

(** ** Busy-flags *)

(** C7.  The health-check control is disabled and shows a spinner exactly
    when [checkingHealth] is true; the refresh-token control, when the
    card has one, is disabled and shows a spinner exactly when
    [refreshingToken] is true; the delete control is disabled exactly when
    [deleting] is true; the edit and reset controls are the same whatever
    the busy-flags are. *)
Theorem busy_flags_drive_controls rt props :
  (controls onCheckHealth (CredentialCard rt props) = [healthButton props]
   /\ renderedDisabled (healthButton props) = checkingHealth props
   /\ showsSpinner (healthButton props) = checkingHealth props)
  /\ Forall (fun b => renderedDisabled b = refreshingToken props
                      /\ showsSpinner b = refreshingToken props)
       (controls onRefreshToken (CredentialCard rt props))
  /\ (controls onDelete (CredentialCard rt props) = [deleteButton props]
      /\ renderedDisabled (deleteButton props) = deleting props)
  /\ (forall d h r,
        controls onEdit (CredentialCard rt (setBusy d h r props))
        = controls onEdit (CredentialCard rt props)
        /\ controls onReset (CredentialCard rt (setBusy d h r props))
           = controls onReset (CredentialCard rt props)).
Proof.
  repeat split.
  - exact (controls_of_card rt onCheckHealth props).
  - unfold healthButton, busyIcon. now destruct (checkingHealth props).
  - rewrite (controls_of_card rt onRefreshToken props).
    destruct (supportsTokenRefresh _); constructor; [|constructor].
    unfold refreshButton, busyIcon.
    now destruct (refreshingToken props).
  - exact (controls_of_card rt onDelete props).
  - rewrite !(controls_of_card rt onEdit). reflexivity.
  - rewrite !(controls_of_card rt onReset). reflexivity.
Qed.

(** ** The controls without a busy-flag *)

(** C10.  The card has one toggle, whose checked state is the negation of
    [is_disabled]; the toggle, the edit control and the reset control
    carry no [disabled] prop, so none of them is rendered disabled,
    whatever the snapshot and the busy-flags are. *)
Theorem toggle_edit_reset_enabled rt props :
  controls onToggle (CredentialCard rt props)
  = [toggleSwitch (credential props)]
  /\ checked (propsOf (toggleSwitch (credential props)))
     = Some (negb (is_disabled (credential props)))
  /\ controls onEdit (CredentialCard rt props) = [editButton]
  /\ controls onReset (CredentialCard rt props) = [resetButton]
  /\ Forall (fun b => disabled (propsOf b) = None
                      /\ renderedDisabled b = false)
       [toggleSwitch (credential props); editButton; resetButton].
Proof.
  split; [exact (controls_of_card rt onToggle props)|].
  split; [reflexivity|].
  split; [exact (controls_of_card rt onEdit props)|].
  split; [exact (controls_of_card rt onReset props)|].
  repeat constructor.
Qed.

(** ** The body *)

Lemma append_empty_r (s : string) : s +:+ "" = s.
Proof.
  induction s as [|a s IH]; [reflexivity|].
  change (String a (s +:+ "") = String a s). now rewrite IH.
Qed.

Lemma or_optNum (count : option Z) :
  JS.or (JS.optNum count) (JS.VNum 0) = JS.VNum (default 0%Z count).
Proof.
  destruct count as [n|]; [|reflexivity].
  unfold JS.or; simpl. destruct (Z.eqb_spec n 0); [now subst|reflexivity].
Qed.

Lemma textContent_counter (l : string) (count : option Z) :
  textContent (counter l count)
  = l +:+ JS.numToString (default 0%Z count) +:+ " 次".
Proof.
  unfold counter, text. rewrite or_optNum. reflexivity.
Qed.

Lemma renderedFacts_factGrid rt c :
  renderedFacts (factGrid rt c)
  = List.filter (fun f => JS.truthy (JS.optStr (factField f (dataOf c))))
      allFacts
  /\ map rowValue (List.filter isElement (childrenOf (factGrid rt c)))
     = map (fun f => factText rt f (dataOf c)) (renderedFacts (factGrid rt c)).
Proof.
  unfold renderedFacts, factGrid, childrenOf, factRow, andNode, allFacts.
  cbv [List.filter factField].
  case_truthy.
  all: split; [reflexivity|].
  all: cbn [List.filter isElement map omap rowFact rowValue textContent
              fold_right text factText fieldText factField].
  all: rewrite ?append_empty_r; reflexivity.
Qed.

(** C8.  The body renders the fact rows in the order email, region, base
    URL, expiry date, last-refresh date; the row of a fact is rendered if
    and only if its field is set to a string that is not empty, and shows
    the field (the two dates through [formatDate]).  The two counters are
    always rendered and show 0 when the count is absent.  The last-error
    text is rendered if and only if [last_error] is set to a string that
    is not empty. *)
Theorem body_rows rt c :
  childrenOf (cardContent rt c) = [factGrid rt c; counterLine c]
  /\ renderedFacts (factGrid rt c)
     = List.filter
         (fun f => JS.truthy (JS.optStr (factField f (dataOf c)))) allFacts
  /\ (forall f, In f (renderedFacts (factGrid rt c))
                <-> exists s, factField f (dataOf c) = Some s /\ s <> "")
  /\ map rowValue (List.filter isElement (childrenOf (factGrid rt c)))
     = map (fun f => factText rt f (dataOf c)) (renderedFacts (factGrid rt c))
  /\ (exists last,
        childrenOf (counterLine c)
        = [counter "使用: " (usage_count c);
           counter "错误: " (error_count c); last]
        /\ (isElement last = true
            <-> exists s, last_error c = Some s /\ s <> "")
        /\ (last = lastErrorText c \/ isElement last = false))
  /\ textContent (counter "使用: " (usage_count c))
     = "使用: " +:+ JS.numToString (default 0%Z (usage_count c)) +:+ " 次"
  /\ textContent (counter "错误: " (error_count c))
     = "错误: " +:+ JS.numToString (default 0%Z (error_count c)) +:+ " 次"
  /\ textContent (lastErrorText c)
     = "最后错误: " +:+ default "" (last_error c).
Proof.
  destruct (renderedFacts_factGrid rt c) as [Hrows Hvalues].
  split; [reflexivity|]. split; [exact Hrows|]. split.
  { intros f. rewrite Hrows, filter_In, truthy_optStr.
    split; [tauto|]. intros H. split; [|exact H].
    destruct f; simpl; tauto. }
  split; [exact Hvalues|]. split.
  { exists (andNode (JS.optStr (last_error c)) (lastErrorText c)).
    split; [reflexivity|]. rewrite <- truthy_optStr. unfold andNode.
    destruct (JS.truthy _); simpl; intuition congruence. }
  split; [apply textContent_counter|]. split; [apply textContent_counter|].
  unfold lastErrorText, text. cbn [textContent fold_right].
  destruct (last_error c) as [s|]; simpl; [|reflexivity].
  now rewrite append_empty_r.
Qed.

Lemma body_rows_counterexample :
  email (dataOf Sample.emptyEmail) = Some ""
  /\ ~ In FEmail (renderedFacts (factGrid ReferenceHost.host Sample.emptyEmail))
  /\ List.filter isElement
       (childrenOf (factGrid ReferenceHost.host Sample.emptyEmail))
     = [ factRow (Some "us-east-1") "flex items-center gap-2" Globe "区域:"
           (Element (Tag "span") noProps [ text "us-east-1" ]) ].
Proof.
  split; [reflexivity|]. split; [|reflexivity].
  vm_compute. intros [H|[]]. discriminate H.
Qed.

(** ** The default auth type *)

Lemma classify_badge rt c :
  badge rt c
  = Element Badge
      {| className :=
           Some ("bg-"
                 +:+ JS.toString rt
                       (colorToken (classify (auth_type (dataOf c))))
                 +:+ "-50");
         variant := Some "outline"; size := None; onClick := None;
         disabled := None; checked := None; onCheckedChange := None |}
      [ icon (iconId (classify (auth_type (dataOf c)))) "h-3 w-3 mr-1";
        Expr (label (classify (auth_type (dataOf c)))) ].
Proof. reflexivity. Qed.

Lemma authTypeOf_setAuthType a props :
  authTypeOf (credential (setAuthType a props)) = JS.orStr a "oauth".
Proof. reflexivity. Qed.

Lemma card_depends_on_authTypeOf rt a props :
  authTypeOf (credential props) = JS.orStr a "oauth" ->
  CredentialCard rt (setAuthType a props) = CredentialCard rt props.
Proof.
  intros Heq. unfold CredentialCard, cardHeader, cardFooter, badge.
  rewrite authTypeOf_setAuthType, <- Heq. reflexivity.
Qed.

(** C9.  A snapshot whose [auth_type] is the empty string is rendered as
    the same snapshot without an [auth_type]: the badge reads ["OAuth"],
    with the key icon and the blue color, and the card has the
    refresh-token control.  The unknown-key fallback is not applied. *)
Theorem empty_auth_type_is_default rt props :
  auth_type (dataOf (credential props)) = Some "" ->
  CredentialCard rt props = CredentialCard rt (setAuthType None props)
  /\ badge rt (credential props)
     = Element Badge
         {| className := Some "bg-blue-50"; variant := Some "outline";
            size := None; onClick := None; disabled := None;
            checked := None; onCheckedChange := None |}
         [ icon Key "h-3 w-3 mr-1"; text "OAuth" ]
  /\ controls onRefreshToken (CredentialCard rt props)
     = [refreshButton props]
  /\ label (classify (Some "")) = label (classify None)
  /\ label (classify (Some "")) <> JS.VStr "".
Proof.
  intros Hempty.
  assert (Hauth : authTypeOf (credential props) = "oauth").
  { unfold authTypeOf. rewrite Hempty. reflexivity. }
  split; [symmetry; now apply card_depends_on_authTypeOf|].
  split; [unfold badge; rewrite Hauth; reflexivity|].
  split; [|split; [reflexivity|discriminate]].
  rewrite (controls_of_card rt onRefreshToken props), Hauth. reflexivity.
Qed.

Lemma empty_auth_type_is_default_witness :
  auth_type (dataOf Sample.emptyAuthType) = Some ""
  /\ CredentialCard ReferenceHost.host (Sample.props Sample.emptyAuthType)
     = CredentialCard ReferenceHost.host
         (setAuthType None (Sample.props Sample.emptyAuthType)).
Proof.
  assert (H : auth_type (dataOf (credential (Sample.props Sample.emptyAuthType)))
              = Some "") by reflexivity.
  split; [exact H|].
  exact (proj1 (empty_auth_type_is_default ReferenceHost.host
                  (Sample.props Sample.emptyAuthType) H)).
Defined.

(** ** The classification of auth types *)

(** Closes [~ In s l] for a literal [s] and a list [l] of literals. *)
Ltac not_listed :=
  let H := fresh "H" in
  simpl; intros H; repeat (destruct H as [H|H]; [discriminate H|]); exact H.

Lemma get_unknown (o : gmap string string) (k : string) :
  o !! k = None -> ~ In k JS.ObjectPrototype -> JS.get o k = JS.VUndefined.
Proof.
  intros Hown Hproto. unfold JS.get. rewrite Hown.
  destruct (existsb _ _) eqn:Hex; [|reflexivity].
  exfalso. apply Hproto. now apply includes_In.
Qed.

Lemma labels_unknown (k : string) :
  ~ In k knownKeys -> AUTH_TYPE_LABELS !! k = None.
Proof.
  intros Hk. unfold AUTH_TYPE_LABELS.
  rewrite !lookup_insert_ne, lookup_singleton_ne;
    solve [reflexivity | intros <-; apply Hk; simpl; tauto].
Qed.

Lemma colors_unknown (k : string) :
  ~ In k knownKeys -> AUTH_TYPE_COLORS !! k = None.
Proof.
  intros Hk. unfold AUTH_TYPE_COLORS.
  rewrite !lookup_insert_ne, lookup_singleton_ne;
    solve [reflexivity | intros <-; apply Hk; simpl; tauto].
Qed.

Lemma icon_unknown (k : string) :
  ~ In k knownKeys -> getAuthTypeIcon k = Key.
Proof.
  intros Hk. unfold getAuthTypeIcon.
  repeat match goal with
         | |- context [String.eqb k ?l] =>
             destruct (String.eqb_spec k l) as [->|_]
         end;
    solve [reflexivity | exfalso; apply Hk; simpl; tauto].
Qed.

(** The six rows of the table. *)
Lemma classify_known :
  map (fun k => classify (Some k)) knownKeys
  = [ {| label := JS.VStr "OAuth"; iconId := Key;
         colorToken := JS.VStr "blue" |};
      {| label := JS.VStr "Claude Code"; iconId := Terminal;
         colorToken := JS.VStr "purple" |};
      {| label := JS.VStr "Console"; iconId := Building;
         colorToken := JS.VStr "green" |};
      {| label := JS.VStr "Setup Token"; iconId := Lock;
         colorToken := JS.VStr "yellow" |};
      {| label := JS.VStr "Bedrock"; iconId := Cloud;
         colorToken := JS.VStr "orange" |};
      {| label := JS.VStr "CCR"; iconId := Server;
         colorToken := JS.VStr "gray" |} ]
  /\ classify None = classify (Some "oauth").
Proof. split; reflexivity. Qed.

Lemma orStr_nonempty (s d : string) : s <> "" -> JS.orStr (Some s) d = s.
Proof.
  intros Hne. apply String.eqb_neq in Hne. unfold JS.orStr.
  now rewrite Hne.
Qed.

Lemma classify_unknown (s : string) :
  s <> "" -> ~ In s JS.ObjectPrototype -> ~ In s knownKeys ->
  classify (Some s)
  = {| label := JS.VStr s; iconId := Key; colorToken := JS.VStr "gray" |}.
Proof.
  intros Hne Hproto Hk. unfold classify.
  rewrite orStr_nonempty by assumption. cbv zeta.
  unfold badgeLabel, badgeColor.
  rewrite !get_unknown, icon_unknown
    by auto using labels_unknown, colors_unknown.
  reflexivity.
Qed.

Lemma classify_known_strings (s : string) :
  In s knownKeys ->
  (exists l, label (classify (Some s)) = JS.VStr l /\ l <> "")
  /\ (exists k, colorToken (classify (Some s)) = JS.VStr k /\ k <> "").
Proof.
  simpl. intros Hk.
  repeat (destruct Hk as [<-|Hk];
          [split; eexists; (split; [reflexivity|discriminate])|]).
  destruct Hk.
Qed.

(** C2.  For every string that is neither empty nor the name of a member
    of [Object.prototype], the classification yields a label that is a
    non-empty string, an icon and a color token that is a non-empty
    string; outside the six known keys the label is the string itself,
    the icon is the key icon and the color is ["gray"]. *)
Theorem classify_total (s : string) :
  s <> "" -> ~ In s JS.ObjectPrototype ->
  (exists l, label (classify (Some s)) = JS.VStr l /\ l <> "")
  /\ (exists i, iconId (classify (Some s)) = i)
  /\ (exists k, colorToken (classify (Some s)) = JS.VStr k /\ k <> "")
  /\ (~ In s knownKeys ->
      label (classify (Some s)) = JS.VStr s
      /\ iconId (classify (Some s)) = Key
      /\ colorToken (classify (Some s)) = JS.VStr "gray").
Proof.
  intros Hne Hproto.
  destruct (in_dec string_dec s knownKeys) as [Hk|Hk].
  - destruct (classify_known_strings s Hk) as [Hlabel Hcolor].
    split; [exact Hlabel|]. split; [eauto|]. split; [exact Hcolor|].
    contradiction.
  - rewrite (classify_unknown s Hne Hproto Hk). simpl.
    split; [now exists s|]. split; [eauto|].
    split; [exists "gray"; split; [reflexivity|discriminate]|].
    intros _. auto.
Qed.

Lemma classify_total_witness :
  "unknown_type" <> "" /\ ~ In "unknown_type" JS.ObjectPrototype
  /\ ~ In "unknown_type" knownKeys
  /\ label (classify (Some "unknown_type")) = JS.VStr "unknown_type"
  /\ iconId (classify (Some "unknown_type")) = Key
  /\ colorToken (classify (Some "unknown_type")) = JS.VStr "gray".
Proof.
  assert (Hne : "unknown_type" <> "") by discriminate.
  assert (Hproto : ~ In "unknown_type" JS.ObjectPrototype) by not_listed.
  assert (Hk : ~ In "unknown_type" knownKeys) by not_listed.
  split; [exact Hne|]. split; [exact Hproto|]. split; [exact Hk|].
  exact (proj2 (proj2 (proj2 (classify_total "unknown_type" Hne Hproto)))
           Hk).
Defined.

(** The empty string is outside the six keys, yet it is classified as
    ["oauth"], and the expressions of the badge applied to it without the
    default give an empty label.  The key ["constructor"] is outside the
    six keys as well, and both tables answer it with the member they
    inherit instead of falling back. *)
Lemma classify_counterexample :
  (~ In "" knownKeys
   /\ label (classify (Some "")) = JS.VStr "OAuth"
   /\ label (classify (Some "")) <> JS.VStr ""
   /\ colorToken (classify (Some "")) = JS.VStr "blue"
   /\ colorToken (classify (Some "")) <> JS.VStr "gray"
   /\ badgeLabel "" = JS.VStr "")
  /\ (~ In "constructor" knownKeys
      /\ label (classify (Some "constructor")) = JS.VInherited "constructor"
      /\ label (classify (Some "constructor")) <> JS.VStr "constructor"
      /\ colorToken (classify (Some "constructor"))
         = JS.VInherited "constructor"
      /\ colorToken (classify (Some "constructor")) <> JS.VStr "gray").
Proof.
  repeat split; try reflexivity; try discriminate; not_listed.
Qed.

(** ** Examples on the reference host *)

Example formatDate_iso :
  formatDate ReferenceHost.host "2025-01-15T08:30:00Z" = "01/15 08:30".
Proof. reflexivity. Qed.

(** The three end-to-end scenarios of the specification. *)

Example scenario_A :
  let c := Sample.scenario false None "oauth" in
  isHealthy c = true
  /\ label (classify (auth_type (dataOf c))) = JS.VStr "OAuth"
  /\ controls onRefreshToken
       (CredentialCard ReferenceHost.host (Sample.props c))
     = [refreshButton (Sample.props c)].
Proof. repeat split. Qed.

Example scenario_B :
  let c := Sample.scenario true (Some "unhealthy") "bedrock" in
  isHealthy c = false
  /\ className (propsOf (CredentialCard ReferenceHost.host (Sample.props c)))
     = Some "opacity-60"
  /\ label (classify (auth_type (dataOf c))) = JS.VStr "Bedrock"
  /\ controls onRefreshToken
       (CredentialCard ReferenceHost.host (Sample.props c))
     = [].
Proof. repeat split. Qed.

Example scenario_C :
  let c := Sample.scenario false None "unknown_type" in
  classify (auth_type (dataOf c))
  = {| label := JS.VStr "unknown_type"; iconId := Key;
       colorToken := JS.VStr "gray" |}
  /\ controls onRefreshToken
       (CredentialCard ReferenceHost.host (Sample.props c))
     = [].
Proof. repeat split. Qed.

(** ** The card as a whole *)

Lemma select_CredentialCard f rt props :
  select f (CredentialCard rt props)
  = ((if f Card (cls (if is_disabled (credential props)
                      then "opacity-60" else ""))
      then [CredentialCard rt props] else [])
     ++ select f (cardHeader rt (credential props))
     ++ select f (cardContent rt (credential props))
     ++ select f (cardFooter props))%list.
Proof.
  unfold CredentialCard. cbn [select flat_map]. now rewrite app_nil_r.
Qed.

(** Each region is settled by cases on the branches of the source. *)

Ltac header_cases c :=
  unfold cardHeader, badge, getAuthTypeIcon; destruct (isHealthy c);
  repeat match goal with
         | |- context [String.eqb ?a ?b] => destruct (String.eqb a b)
         end;
  reflexivity.

Ltac content_cases :=
  unfold cardContent, factGrid, counterLine, factRow, andNode;
  case_truthy; reflexivity.

Ltac footer_cases props :=
  unfold cardFooter, andNode, healthButton, refreshButton, deleteButton,
    busyIcon;
  cbn [JS.truthy];
  destruct (supportsTokenRefresh (authTypeOf (credential props))),
    (checkingHealth props), (refreshingToken props), (deleting props);
  reflexivity.

Lemma byTag_h3_card rt props :
  byTag "h3" (CredentialCard rt props)
  = [ Element (Tag "h3") (cls "font-medium")
        [ Expr (JS.or (JS.optStr (name (credential props)))
                  (JS.VStr "未命名凭证")) ] ].
Proof.
  unfold byTag. rewrite select_CredentialCard.
  replace (select _ (cardContent rt (credential props))) with (@nil Node)
    by (symmetry; content_cases).
  replace (select _ (cardFooter props)) with (@nil Node)
    by (symmetry; footer_cases props).
  header_cases (credential props).
Qed.

(** X1.  The card has one heading.  It shows the name of the credential
    when the name is set and not empty, and the placeholder otherwise; it
    is never empty. *)
Theorem title_never_empty rt props :
  exists h,
    byTag "h3" (CredentialCard rt props) = [h]
    /\ textContent h
       = match name (credential props) with
         | Some s => if String.eqb s "" then "未命名凭证" else s
         | None => "未命名凭证"
         end
    /\ textContent h <> "".
Proof.
  eexists. split; [apply byTag_h3_card|].
  rewrite <- orStr_or. cbn [textContent fold_right].
  rewrite append_empty_r. unfold JS.orStr.
  destruct (name (credential props)) as [s|];
    [|split; [reflexivity|discriminate]].
  destruct (String.eqb_spec s ""); cbn [negb];
    split; try reflexivity; try discriminate; assumption.
Qed.

Lemma healthIcons_card rt props :
  healthIcons (CredentialCard rt props)
  = [ if isHealthy (credential props)
      then icon CheckCircle "h-5 w-5 text-green-500"
      else icon XCircle "h-5 w-5 text-red-500" ].
Proof.
  unfold healthIcons. rewrite select_CredentialCard.
  replace (select _ (cardContent rt (credential props))) with (@nil Node)
    by (symmetry; content_cases).
  replace (select _ (cardFooter props)) with (@nil Node)
    by (symmetry; footer_cases props).
  header_cases (credential props).
Qed.

(** X2.  The card is dimmed exactly when the credential is disabled, and
    it holds exactly one status icon: the green check when the credential
    is healthy, the red cross otherwise.  A disabled credential and an
    unhealthy one always get the red cross. *)
Theorem dimmed_card_is_unhealthy rt props :
  className (propsOf (CredentialCard rt props))
  = Some (if is_disabled (credential props) then "opacity-60" else "")
  /\ healthIcons (CredentialCard rt props)
     = [ if isHealthy (credential props)
         then icon CheckCircle "h-5 w-5 text-green-500"
         else icon XCircle "h-5 w-5 text-red-500" ]
  /\ (is_disabled (credential props) = true ->
      healthIcons (CredentialCard rt props)
      = [ icon XCircle "h-5 w-5 text-red-500" ])
  /\ (health_status (credential props) = Some "unhealthy" ->
      healthIcons (CredentialCard rt props)
      = [ icon XCircle "h-5 w-5 text-red-500" ]).
Proof.
  split; [reflexivity|]. split; [apply healthIcons_card|].
  rewrite healthIcons_card. unfold isHealthy.
  split.
  - intros ->. reflexivity.
  - intros ->. now rewrite andb_false_r.
Qed.

Lemma dimmed_card_is_unhealthy_witness :
  is_disabled (credential (Sample.props Sample.short)) = true
  /\ health_status (credential Cases.busy) = Some "unhealthy"
  /\ healthIcons (CredentialCard ReferenceHost.host (Sample.props Sample.short))
     = [ icon XCircle "h-5 w-5 text-red-500" ]
  /\ healthIcons (CredentialCard ReferenceHost.host Cases.busy)
     = [ icon XCircle "h-5 w-5 text-red-500" ].
Proof.
  assert (Hd : is_disabled (credential (Sample.props Sample.short)) = true)
    by reflexivity.
  assert (Hu : health_status (credential Cases.busy) = Some "unhealthy")
    by reflexivity.
  split; [exact Hd|]. split; [exact Hu|]. split.
  - exact (proj1 (proj2 (proj2 (dimmed_card_is_unhealthy ReferenceHost.host
                                  (Sample.props Sample.short)))) Hd).
  - exact (proj2 (proj2 (proj2 (dimmed_card_is_unhealthy ReferenceHost.host
                                  Cases.busy))) Hu).
Defined.

Lemma allControls_card rt props :
  allControls (CredentialCard rt props)
  = ([ toggleSwitch (credential props); editButton; resetButton;
       healthButton props ]
     ++ (if supportsTokenRefresh (authTypeOf (credential props))
         then [refreshButton props] else [])
     ++ [ deleteButton props ])%list.
Proof.
  unfold allControls. rewrite select_CredentialCard.
  replace (select _ (cardHeader rt (credential props)))
    with [toggleSwitch (credential props)]
    by (symmetry; header_cases (credential props)).
  replace (select _ (cardContent rt (credential props))) with (@nil Node)
    by (symmetry; content_cases).
  footer_cases props.
Qed.



(** ** Icons of the footer *)

(** X4.  Every button of the footer holds exactly one icon: the spinner
    while its busy-flag is set and its own icon otherwise; the edit and
    reset buttons, which have no busy-flag, never show the spinner. *)
Theorem footer_icons props :
  iconsOf editButton = [Edit]
  /\ iconsOf resetButton = [RotateCcw]
  /\ iconsOf (healthButton props)
     = [if checkingHealth props then Loader2 else Zap]
  /\ iconsOf (refreshButton props)
     = [if refreshingToken props then Loader2 else RefreshCw]
  /\ iconsOf (deleteButton props)
     = [if deleting props then Loader2 else Trash2]
  /\ showsSpinner (deleteButton props) = deleting props
  /\ showsSpinner editButton = false
  /\ showsSpinner resetButton = false.
Proof.
  unfold healthButton, refreshButton, deleteButton, busyIcon.
  destruct (checkingHealth props), (refreshingToken props), (deleting props);
    repeat split.
Qed.

(** ** What each control depends on *)

(** X5.  The edit and reset controls are the same for all props.  The
    health-check control depends on [checkingHealth] only, the delete
    control on [deleting] only, the refresh-token control on
    [refreshingToken] and on whether the auth type supports a refresh,
    the toggle on [is_disabled] only.  In particular a disabled or
    unhealthy credential keeps all its actions. *)
Theorem controls_depend_on_own_inputs rt rt' p p' :
  controls onEdit (CredentialCard rt p) = controls onEdit (CredentialCard rt' p')
  /\ controls onReset (CredentialCard rt p)
     = controls onReset (CredentialCard rt' p')
  /\ (checkingHealth p = checkingHealth p' ->
      controls onCheckHealth (CredentialCard rt p)
      = controls onCheckHealth (CredentialCard rt' p'))
  /\ (deleting p = deleting p' ->
      controls onDelete (CredentialCard rt p)
      = controls onDelete (CredentialCard rt' p'))
  /\ (refreshingToken p = refreshingToken p' ->
      supportsTokenRefresh (authTypeOf (credential p))
      = supportsTokenRefresh (authTypeOf (credential p')) ->
      controls onRefreshToken (CredentialCard rt p)
      = controls onRefreshToken (CredentialCard rt' p'))
  /\ (is_disabled (credential p) = is_disabled (credential p') ->
      controls onToggle (CredentialCard rt p)
      = controls onToggle (CredentialCard rt' p')).
Proof.
  rewrite !controls_of_card.
  unfold healthButton, deleteButton, refreshButton, toggleSwitch.
  repeat split; try congruence.
  intros -> ->. reflexivity.
Qed.

Lemma controls_depend_on_own_inputs_witness :
  is_disabled (credential Cases.busy) <> is_disabled (credential Cases.idle)
  /\ health_status (credential Cases.busy)
     <> health_status (credential Cases.idle)
  /\ controls onCheckHealth (CredentialCard ReferenceHost.host Cases.busy)
     = controls onCheckHealth (CredentialCard ReferenceHost.host Cases.idle)
  /\ controls onDelete (CredentialCard ReferenceHost.host Cases.busy)
     = controls onDelete (CredentialCard ReferenceHost.host Cases.idle)
  /\ controls onRefreshToken (CredentialCard ReferenceHost.host Cases.busy)
     = controls onRefreshToken (CredentialCard ReferenceHost.host Cases.idle).
Proof.
  destruct (controls_depend_on_own_inputs ReferenceHost.host
              ReferenceHost.host Cases.busy Cases.idle)
    as (_ & _ & Hh & Hd & Hr & _).
  split; [discriminate|]. split; [discriminate|].
  split; [exact (Hh eq_refl)|]. split; [exact (Hd eq_refl)|].
  exact (Hr eq_refl eq_refl).
Defined.

(** ** Dates in the body *)




(** ** A snapshot without attribute bag *)

(** X7.  A snapshot without [credential_data] is rendered as the same
    snapshot with an empty attribute bag: no fact row, the badge of
    ["oauth"], and the refresh-token control. *)
Theorem absent_data_is_empty_bag rt props :
  credential_data (credential props) = None ->
  CredentialCard rt props
  = CredentialCard rt
      {| credential := setData emptyData (credential props);
         deleting := deleting props;
         checkingHealth := checkingHealth props;
         refreshingToken := refreshingToken props |}
  /\ renderedFacts (factGrid rt (credential props)) = []
  /\ authTypeOf (credential props) = "oauth"
  /\ classify (auth_type (dataOf (credential props)))
     = {| label := JS.VStr "OAuth"; iconId := Key;
          colorToken := JS.VStr "blue" |}
  /\ controls onRefreshToken (CredentialCard rt props)
     = [refreshButton props].
Proof.
  intros Hnone.
  assert (Hdata : dataOf (credential props) = emptyData).
  { unfold dataOf. now rewrite Hnone. }
  assert (Hauth : authTypeOf (credential props) = "oauth").
  { unfold authTypeOf. now rewrite Hdata. }
  split.
  { unfold CredentialCard, cardHeader, cardContent, cardFooter, badge,
      factGrid. cbn [credential is_disabled].
    change (dataOf (setData emptyData (credential props))) with emptyData.
    change (authTypeOf (setData emptyData (credential props))) with "oauth".
    rewrite Hdata, Hauth. reflexivity. }
  split.
  { rewrite (proj1 (renderedFacts_factGrid rt (credential props))), Hdata.
    reflexivity. }
  split; [exact Hauth|]. split; [now rewrite Hdata|].
  rewrite (controls_of_card rt onRefreshToken props), Hauth. reflexivity.
Qed.

Lemma absent_data_is_empty_bag_witness :
  credential_data Sample.short = None
  /\ renderedFacts (factGrid ReferenceHost.host Sample.short) = []
  /\ controls onRefreshToken
       (CredentialCard ReferenceHost.host (Sample.props Sample.short))
     = [refreshButton (Sample.props Sample.short)].
Proof.
  assert (H : credential_data (credential (Sample.props Sample.short)) = None)
    by reflexivity.
  destruct (absent_data_is_empty_bag ReferenceHost.host
              (Sample.props Sample.short) H) as (_ & Hrows & _ & _ & Hctl).
  split; [exact H|]. split; [exact Hrows|exact Hctl].
Defined.

(** ** Invariants of the badge *)

Lemma authTypeOf_nonempty c : authTypeOf c <> "".
Proof.
  unfold authTypeOf, JS.orStr.
  destruct (auth_type (dataOf c)) as [s|]; [|discriminate].
  destruct (String.eqb_spec s ""); cbn [negb]; [discriminate|assumption].
Qed.

Lemma truthy_or_string (v : JS.Value) (s : string) :
  s <> "" -> JS.truthy (JS.or v (JS.VStr s)) = true.
Proof.
  intros Hne. unfold JS.or. destruct (JS.truthy v) eqn:Hv; [exact Hv|].
  simpl. apply negb_true_iff. now apply String.eqb_neq.
Qed.

(** X8.  Whatever the snapshot, the defaulted auth type is not the empty
    string, and the label and the color that the badge computes from it
    are truthy: the label is never the empty string nor [undefined]. *)
Theorem badge_never_blank c :
  authTypeOf c <> ""
  /\ JS.truthy (badgeLabel (authTypeOf c)) = true
  /\ JS.truthy (badgeColor (authTypeOf c)) = true
  /\ badgeLabel (authTypeOf c) <> JS.VStr ""
  /\ badgeLabel (authTypeOf c) <> JS.VUndefined.
Proof.
  assert (Hl : JS.truthy (badgeLabel (authTypeOf c)) = true)
    by apply truthy_or_string, authTypeOf_nonempty.
  split; [apply authTypeOf_nonempty|]. split; [exact Hl|].
  split; [now apply truthy_or_string|].
  split; intros Heq; rewrite Heq in Hl; discriminate Hl.
Qed.

(** ** The two tables and the icon switch *)

Lemma In_knownKeys_cases (P : string -> Prop) :
  P "oauth" -> P "claude_code" -> P "console" -> P "setup_token" ->
  P "bedrock" -> P "ccr" ->
  forall s, In s knownKeys -> P s.
Proof.
  intros H1 H2 H3 H4 H5 H6 s Hs. simpl in Hs.
  repeat (destruct Hs as [<-|Hs]; [assumption|]). destruct Hs.
Qed.

(** X9.  The label table and the color table have the same keys, the six
    known ones.  Every auth type that supports a token refresh, and every
    auth type whose icon is not the key icon, is one of them. *)
Theorem tables_share_keys (s : string) :
  (is_Some (AUTH_TYPE_LABELS !! s) <-> In s knownKeys)
  /\ (is_Some (AUTH_TYPE_COLORS !! s) <-> In s knownKeys)
  /\ (supportsTokenRefresh s = true -> In s knownKeys)
  /\ (getAuthTypeIcon s <> Key -> In s knownKeys).
Proof.
  split; [|split; [|split]].
  - split.
    + intros Hsome. destruct (in_dec string_dec s knownKeys) as [|Hk];
        [assumption|].
      rewrite (labels_unknown s Hk) in Hsome. now destruct Hsome.
    + revert s. apply In_knownKeys_cases; eexists; reflexivity.
  - split.
    + intros Hsome. destruct (in_dec string_dec s knownKeys) as [|Hk];
        [assumption|].
      rewrite (colors_unknown s Hk) in Hsome. now destruct Hsome.
    + revert s. apply In_knownKeys_cases; eexists; reflexivity.
  - unfold supportsTokenRefresh. rewrite includes_In. simpl.
    intuition auto.
  - intros H. destruct (in_dec string_dec s knownKeys) as [|Hk];
      [assumption|].
    now rewrite (icon_unknown s Hk) in H.
Qed.

Lemma tables_share_keys_witness :
  supportsTokenRefresh "console" = true
  /\ getAuthTypeIcon "bedrock" <> Key
  /\ In "console" knownKeys
  /\ In "bedrock" knownKeys.
Proof.
  assert (Hr : supportsTokenRefresh "console" = true) by reflexivity.
  assert (Hi : getAuthTypeIcon "bedrock" <> Key) by discriminate.
  split; [exact Hr|]. split; [exact Hi|]. split.
  - exact (proj1 (proj2 (proj2 (tables_share_keys "console"))) Hr).
  - exact (proj2 (proj2 (proj2 (tables_share_keys "bedrock"))) Hi).
Defined.

(** X10.  Two known auth types that share their icon, their label or
    their color are the same auth type. *)
Theorem known_keys_are_told_apart (a b : string) :
  In a knownKeys -> In b knownKeys ->
  getAuthTypeIcon a = getAuthTypeIcon b
  \/ label (classify (Some a)) = label (classify (Some b))
  \/ colorToken (classify (Some a)) = colorToken (classify (Some b)) ->
  a = b.
Proof.
  intros Ha. revert b. revert a Ha.
  apply (In_knownKeys_cases
           (fun a => forall b, In b knownKeys -> _ -> a = b)).
  all: apply (In_knownKeys_cases (fun b => _ -> _ = b)).
  all: intros [H|[H|H]]; solve [reflexivity | discriminate H].
Qed.

Lemma known_keys_are_told_apart_witness :
  In "ccr" knownKeys
  /\ colorToken (classify (Some "ccr")) = colorToken (classify (Some "ccr"))
  /\ "ccr" = "ccr".
Proof.
  assert (Hk : In "ccr" knownKeys) by (simpl; tauto).
  split; [exact Hk|]. split; [reflexivity|].
  exact (known_keys_are_told_apart "ccr" "ccr" Hk Hk
           (or_intror (or_intror eq_refl))).
Defined.

(** ** Keys that name a member of [Object.prototype] *)

(** X11.  An auth type that is the name of a member of
    [Object.prototype] is not a known key, yet both tables answer it: the
    label and the color of the badge are the inherited member, not the
    raw key and not ["gray"], and the class of the badge is built from the
    text of that member.  Its icon is the key icon and it supports no
    token refresh. *)
Theorem inherited_keys_bypass_fallback rt (k : string) :
  In k JS.ObjectPrototype ->
  ~ In k knownKeys
  /\ badgeLabel k = JS.VInherited k
  /\ badgeColor k = JS.VInherited k
  /\ getAuthTypeIcon k = Key
  /\ supportsTokenRefresh k = false
  /\ JS.toString rt (badgeColor k) = JS.nativeSource rt k.
Proof.
  unfold JS.ObjectPrototype. simpl. intros Hk.
  repeat (destruct Hk as [<-|Hk];
          [repeat split; try reflexivity; not_listed|]).
  destruct Hk.
Qed.

Lemma inherited_keys_bypass_fallback_witness :
  In "toString" JS.ObjectPrototype
  /\ badgeLabel "toString" = JS.VInherited "toString"
  /\ JS.toString ReferenceHost.host (badgeColor "toString")
     = "function toString() { [native code] }".
Proof.
  assert (Hk : In "toString" JS.ObjectPrototype) by (simpl; tauto).
  destruct (inherited_keys_bypass_fallback ReferenceHost.host "toString" Hk)
    as (_ & Hl & _ & _ & _ & Hs).
  split; [exact Hk|]. split; [exact Hl|].
  rewrite Hs. reflexivity.
Defined.

(** ** The length of the displayed identifier *)

Lemma length_append (s t : string) :
  String.length (s +:+ t) = String.length s + String.length t.
Proof.
  induction s as [|a s IH]; [reflexivity|].
  change (S (String.length (s +:+ t)) = S (String.length s + String.length t)).
  now rewrite IH.
Qed.

Lemma length_substring_0 (n : nat) (s : string) :
  String.length (String.substring 0 n s) = Nat.min n (String.length s).
Proof.
  revert n. induction s as [|a s IH]; intros [|n]; simpl; try reflexivity.
  now rewrite IH.
Qed.

(** X12.  The displayed identifier is a prefix of the id followed by
    ["..."]; its length is [min 8 (length id) + 3], between 3 and 11. *)
Theorem displayed_id_length c :
  String.length (textContent (idParagraph c))
  = Nat.min 8 (String.length (uuid c)) + 3
  /\ String.length (textContent (idParagraph c)) <= 11
  /\ 3 <= String.length (textContent (idParagraph c))
  /\ exists rest, uuid c = JS.slice (uuid c) 0 8 +:+ rest
                  /\ textContent (idParagraph c)
                     = JS.slice (uuid c) 0 8 +:+ "...".
Proof.
  assert (Htext : textContent (idParagraph c)
                  = JS.slice (uuid c) 0 8 +:+ "...") by reflexivity.
  assert (Hlen : String.length (textContent (idParagraph c))
                 = Nat.min 8 (String.length (uuid c)) + 3).
  { rewrite Htext, length_append, slice_from_start, length_substring_0.
    reflexivity. }
  split; [exact Hlen|]. rewrite Hlen. split; [lia|]. split; [lia|].
  rewrite slice_from_start.
  destruct (Nat.le_gt_cases 8 (String.length (uuid c))) as [H|H].
  - destruct (substring_prefix (uuid c) 8 H) as (rest & Heq & _).
    exists rest. split; [exact Heq|]. now rewrite Htext, slice_from_start.
  - exists "". rewrite substring_all by lia. rewrite append_empty_r.
    split; [reflexivity|]. rewrite Htext, slice_from_start.
    now rewrite substring_all by lia.
Qed.

(** ** An unknown auth type, end to end *)

Lemma supportsTokenRefresh_known (s : string) :
  supportsTokenRefresh s = true -> In s knownKeys.
Proof.
  unfold supportsTokenRefresh. rewrite includes_In. simpl. intuition auto.
Qed.

(** X13.  A snapshot whose auth type is a non-empty string outside the six
    known keys (and not the name of a member of [Object.prototype]) gets a
    gray badge with the key icon and the raw string as its text, and its
    card has no refresh-token control. *)
Theorem unknown_auth_type_card rt props (s : string) :
  auth_type (dataOf (credential props)) = Some s ->
  s <> "" -> ~ In s JS.ObjectPrototype -> ~ In s knownKeys ->
  badge rt (credential props)
  = Element Badge
      {| className := Some "bg-gray-50"; variant := Some "outline";
         size := None; onClick := None; disabled := None; checked := None;
         onCheckedChange := None |}
      [ icon Key "h-3 w-3 mr-1"; text s ]
  /\ controls onRefreshToken (CredentialCard rt props) = []
  /\ handlersOf (CredentialCard rt props)
     = [ onToggle; onEdit; onReset; onCheckHealth; onDelete ].
Proof.
  intros Hs Hne Hproto Hk.
  assert (Hauth : authTypeOf (credential props) = s).
  { unfold authTypeOf. rewrite Hs. now apply orStr_nonempty. }
  assert (Hno : supportsTokenRefresh s = false).
  { destruct (supportsTokenRefresh s) eqn:E; [|reflexivity].
    now apply supportsTokenRefresh_known in E. }
  pose proof (classify_unknown s Hne Hproto Hk) as Hc.
  unfold classify in Hc. rewrite orStr_nonempty in Hc by assumption.
  injection Hc as Hl Hi Hcol.
  split.
  { unfold badge. rewrite Hauth, Hl, Hi, Hcol. reflexivity. }
  split.
  { rewrite (controls_of_card rt onRefreshToken props), Hauth, Hno.
    reflexivity. }
  unfold handlersOf. rewrite allControls_card, Hauth, Hno. reflexivity.
Qed.

Lemma unknown_auth_type_card_witness :
  auth_type (dataOf (Sample.scenario false None "unknown_type"))
  = Some "unknown_type"
  /\ handlersOf
       (CredentialCard ReferenceHost.host
          (Sample.props (Sample.scenario false None "unknown_type")))
     = [ onToggle; onEdit; onReset; onCheckHealth; onDelete ].
Proof.
  assert (Hs : auth_type
                 (dataOf (credential
                            (Sample.props
                               (Sample.scenario false None "unknown_type"))))
               = Some "unknown_type") by reflexivity.
  assert (Hne : "unknown_type" <> "") by discriminate.
  assert (Hproto : ~ In "unknown_type" JS.ObjectPrototype) by not_listed.
  assert (Hk : ~ In "unknown_type" knownKeys) by not_listed.
  split; [exact Hs|].
  exact (proj2 (proj2 (unknown_auth_type_card ReferenceHost.host
                         (Sample.props
                            (Sample.scenario false None "unknown_type"))
                         "unknown_type" Hs Hne Hproto Hk))).
Defined.
